(** * Portfolio Analyzer: a shallow embedding of [app.py]

    The script reads a table of holdings, asks a market-data service for
    prices, sectors and price histories, derives valuation columns, and
    renders tables, metrics and charts with Streamlit.

    Numbers are IEEE 754 binary64 values, as pandas and numpy hold them:
    Rocq's primitive [float] with the kernel's operations, so that every
    definition below evaluates on concrete inputs.  The series reductions
    (sum, mean, standard deviation, percentage change, group-by sum) are
    written once over an arithmetic interface [Arith] and used at
    [binary64]; the same definitions read at [ideal] (real numbers with a
    missing value) give the statements that hold up to rounding.

    Exceptions are values of [exn]; a computation that may raise returns
    a [result]; the Streamlit page is the list of widgets emitted so far.
    The helper [calculate_drawdown], which the script never calls, is
    modelled on its own; [calculate_xirr], a call to [np.irr] and
    nothing else, is left out. *)

From Stdlib Require Import ZArith List String Floats Reals Lra.
From stdpp Require Import base option list strings gmap fin_maps.

Local Open Scope string_scope.

(** ** Python exceptions and fallible computations *)

Inductive exn : Type :=
  | KeyError (key : string)
  | IndexError
  | ZeroDivisionError
  | OverflowError
  | TypeError
  | ParserError.

Inductive result (A : Type) : Type :=
  | Ok (a : A)
  | Raise (e : exn).
Arguments Ok {A} a.
Arguments Raise {A} e.

#[global] Instance result_ret : MRet result := fun _ a => Ok a.
#[global] Instance result_bind : MBind result := fun _ _ k m =>
  match m with
  | Ok a => k a
  | Raise e => Raise e
  end.
#[global] Instance result_fmap : FMap result := fun _ _ f m =>
  match m with
  | Ok a => Ok (f a)
  | Raise e => Raise e
  end.

(** ** binary64 values *)

Module F64.
Local Open Scope float_scope.

Definition nan : float := PrimFloat.nan.

(** int64 to float64, exact below 2^53. *)
Definition of_Z (z : Z) : float :=
  match z with
  | Z0 => 0
  | Zpos _ => PrimFloat.of_uint63 (Uint63.of_Z z)
  | Zneg p => - PrimFloat.of_uint63 (Uint63.of_Z (Zpos p))
  end.

(** [x == 0] and [x > 0] as Python and numpy read them (every
    comparison with NaN is false). *)
Definition is_zero (x : float) : bool := x =? 0.
Definition positive (x : float) : bool := 0 <? x.
End F64.

(** ** Python float operations used by scalar code

    [df.apply(..., axis=1)] hands each row to the lambda as a Series
    built from the frame's object-typed [values], whose numeric cells
    are Python floats: true division by zero raises. *)

Section PythonFloat.
Local Open Scope float_scope.

(** The cases of [float.__pow__] left after its first three special
    cases: infinite arguments, zero and negative bases, and the call
    of the C library's [pow] with its range error. *)
Variable pow_rest : float → float → result float.

Definition py_div (x y : float) : result float :=
  if F64.is_zero y then Raise ZeroDivisionError else Ok (x / y).

Definition float_pow (iv iw : float) : result float :=
  if iw =? 0 then Ok 1
  else if is_nan iv then Ok iv
  else if is_nan iw then Ok (if iv =? 1 then 1 else iw)
  else pow_rest iv iw.

(** [calculate_cagr], lines 12-13. *)
Definition calculate_cagr (start_value end_value years : float) : result float :=
  if F64.positive start_value then
    ratio ← py_div end_value start_value ;
    e ← py_div 1 years ;
    p ← float_pow ratio e ;
    Ok (p - 1)
  else Ok 0.
End PythonFloat.

(** ** The market-data service (yfinance)

    [history s period] is the [Close] column of
    [yf.Ticker(s).history(period=period)], oldest first; the frame is
    [empty] exactly when this list is.  [info s] is [yf.Ticker(s).info],
    a dictionary, or the exception raised while fetching it.  The
    service is read as a function: asking twice gives the same answer. *)

Record gateway : Type := {
  history : string → string → list float;
  info : string → result (gmap string string)
}.

(** [frame.empty], [series.iloc[-1]] and [series.iloc[0]]. *)
Definition empty {A} (s : list A) : bool :=
  match s with
  | [] => true
  | _ :: _ => false
  end.

Definition iloc_last (s : list float) : result float :=
  match last s with
  | Some x => Ok x
  | None => Raise IndexError
  end.

Definition iloc_first (s : list float) : result float :=
  match s with
  | x :: _ => Ok x
  | [] => Raise IndexError
  end.

(** [get_live_price], lines 26-28. *)
Definition get_live_price (gw : gateway) (symbol : string) : result (option float) :=
  let data := history gw symbol "1d" in
  if negb (empty data) then x ← iloc_last data; Ok (Some x) else Ok None.

(** [get_sector], lines 30-34. *)
Definition get_sector (gw : gateway) (symbol : string) : string :=
  match info gw symbol with
  | Ok d => default "Unknown" (d !! "sector")
  | Raise _ => "Unknown"
  end.

(** ** Arithmetic of a numeric column

    What a float64 column offers to the reductions below: the four
    operations, square root, the missing value NaN and its test, and the
    conversion of an integer (a literal or a count). *)

Class Arith (F : Type) : Type := {
  f_of_Z : Z → F;
  f_nan : F;
  f_isnan : F → bool;
  f_add : F → F → F;
  f_sub : F → F → F;
  f_mul : F → F → F;
  f_div : F → F → F;
  f_sqrt : F → F
}.

(** numpy's float64. *)
#[global] Instance binary64 : Arith float := {|
  f_of_Z := F64.of_Z;
  f_nan := F64.nan;
  f_isnan := PrimFloat.is_nan;
  f_add := PrimFloat.add;
  f_sub := PrimFloat.sub;
  f_mul := PrimFloat.mul;
  f_div := PrimFloat.div;
  f_sqrt := PrimFloat.sqrt
|}.

(** Real numbers with a missing value: no rounding, no overflow, and
    every undefined operation (division by zero, root of a negative
    number) is missing. *)
Module Ideal.
Local Open Scope R_scope.

Definition lift2 (op : R → R → R) (x y : option R) : option R :=
  match x, y with
  | Some a, Some b => Some (op a b)
  | _, _ => None
  end.

Definition div (x y : option R) : option R :=
  match x, y with
  | Some a, Some b => if Req_EM_T b 0 then None else Some (a / b)
  | _, _ => None
  end.

Definition sqrt (x : option R) : option R :=
  match x with
  | Some a => if Rlt_dec a 0 then None else Some (R_sqrt.sqrt a)
  | None => None
  end.

Definition isnan (x : option R) : bool :=
  match x with
  | Some _ => false
  | None => true
  end.
End Ideal.

#[global] Instance ideal : Arith (option R) := {|
  f_of_Z := fun z => Some (IZR z);
  f_nan := None;
  f_isnan := Ideal.isnan;
  f_add := Ideal.lift2 Rplus;
  f_sub := Ideal.lift2 Rminus;
  f_mul := Ideal.lift2 Rmult;
  f_div := Ideal.div;
  f_sqrt := Ideal.sqrt
|}.

(** A close that is quoted and is not zero, in exact arithmetic. *)
Definition quoted (c : option R) : Prop := ∃ r, c = Some r ∧ r ≠ 0%R.

(** ** Series reductions (pandas), NaN cells excluded

    [Series.sum], [mean] and [std] run with [skipna=True]: they range
    over the cells that are not NaN, here in row order. *)

Section Series.
Context {F : Type} `{Arith F}.

(** A cell that is not NaN. *)
Definition present (v : F) : Prop := f_isnan v = false.

Definition nan_add (acc v : F) : F :=
  if f_isnan v then acc else f_add acc v.

(** [Series.sum()]. *)
Definition nansum (s : list F) : F :=
  fold_left nan_add s (f_of_Z 0).

(** [Series.count()]: the number of cells that are not NaN. *)
Definition count (s : list F) : nat :=
  length (filter (λ v, f_isnan v = false) s).

(** [Series.mean()]. *)
Definition nanmean (s : list F) : F :=
  match count s with
  | O => f_nan
  | n => f_div (nansum s) (f_of_Z (Z.of_nat n))
  end.

(** [Series.var()] with the default [ddof=1]: squared deviations from
    the mean over [count - 1], NaN when [count <= 1]. *)
Definition nanvar (s : list F) : F :=
  let n := count s in
  if (n <=? 1)%nat then f_nan
  else
    let avg := f_div (nansum s) (f_of_Z (Z.of_nat n)) in
    let sqr := map (λ v, if f_isnan v then v
                         else f_mul (f_sub avg v) (f_sub avg v)) s in
    f_div (nansum sqr) (f_of_Z (Z.of_nat n - 1)).

(** [Series.std()]. *)
Definition nanstd (s : list F) : F := f_sqrt (nanvar s).

(** [Series.shift(1)]. *)
Definition shift1 (s : list F) : list F :=
  match s with
  | [] => []
  | _ :: _ => f_nan :: removelast s
  end.

(** [Series.pct_change()]: [s / s.shift(1) - 1].  (The forward fill
    that older versions of pandas apply first changes nothing on a
    history without missing closes.) *)
Definition pct_change (s : list F) : list F :=
  zip_with (λ x prev, f_sub (f_div x prev) (f_of_Z 1)) s (shift1 s).

(** Lines 97-99: annualised volatility and mean return of one
    history. *)
Definition risk_record (closes : list F) : F * F :=
  let DailyReturn := pct_change closes in
  let vol := f_mul (nanstd DailyReturn) (f_sqrt (f_of_Z 252)) in
  let avg_return := f_mul (nanmean DailyReturn) (f_of_Z 252) in
  (vol, avg_return).

(** [df.groupby("Sector")["CurrentValue"].sum()], line 85: one entry
    per sector, the sum of the group's cells that are not NaN.  A row
    adds its value to the entry of its key, which starts at 0. *)
Definition groupby_step (m : gmap string F) (kv : string * F) : gmap string F :=
  <[kv.1 := nan_add (default (f_of_Z 0) (m !! kv.1)) kv.2]> m.

Definition groupby_sum (keys : list string) (values : list F) : gmap string F :=
  fold_left groupby_step (zip keys values) ∅.

(** [m'] is [m] with an entry for [k] made sure of: the entry of [m]
    when it has one, and 0 otherwise. *)
Definition with_entry (k : string) (m m' : gmap string F) : Prop :=
  ∀ k', m' !! k' =
        if decide (k' = k) then Some (default (f_of_Z 0) (m !! k')) else m !! k'.
End Series.

(** ** The holdings table (a pandas DataFrame)

    A frame maps column names to columns; the columns of one frame have
    one length, the number of holdings.  A column holds strings, float64
    numbers (a missing number is NaN), or dates as day numbers, which is
    what [pd.to_datetime] makes of a date column. *)

Inductive column : Type :=
  | StrCol (cells : list string)
  | NumCol (cells : list float)
  | DayCol (cells : list Z).

Abbreviation frame := (gmap string column).

(** [df[c]]. *)
Definition getitem (df : frame) (c : string) : result column :=
  match df !! c with
  | Some col => Ok col
  | None => Raise (KeyError c)
  end.

Definition as_str (col : column) : result (list string) :=
  match col with StrCol l => Ok l | _ => Raise TypeError end.
Definition as_num (col : column) : result (list float) :=
  match col with NumCol l => Ok l | _ => Raise TypeError end.
Definition as_day (col : column) : result (list Z) :=
  match col with DayCol l => Ok l | _ => Raise TypeError end.

(** [df[a] op df[b]], cell by cell. *)
Definition binop (op : float → float → float) (df : frame) (a b : string) : result column :=
  x ← getitem df a; y ← getitem df b;
  xs ← as_num x; ys ← as_num y;
  Ok (NumCol (zip_with op xs ys)).

(** The number in row [i] of column [c], when there is one. *)
Definition cell (df : frame) (c : string) (i : nat) : option float :=
  match df !! c with
  | Some (NumCol l) => l !! i
  | _ => None
  end.

Definition col_length (col : column) : nat :=
  match col with
  | StrCol l => length l
  | NumCol l => length l
  | DayCol l => length l
  end.

(** Every column of the frame has [n] rows. *)
Definition rectangular (df : frame) (n : nat) : Prop :=
  ∀ c col, df !! c = Some col → col_length col = n.

(** ** The derived columns, lines 50-65 *)

Section Columns.
Local Open Scope float_scope.
Variable pow_rest : float → float → result float.
Variable gw : gateway.
(** The day number of [dt.datetime.today()]. *)
Variable today : Z.

(** Line 50.  [Series.apply] collects the prices; a [None] among
    them becomes NaN in the float64 column. *)
Definition live_prices (df : frame) : result frame :=
  col ← getitem df "Symbol"; symbols ← as_str col;
  prices ← mapM (get_live_price gw) symbols;
  Ok (<["LivePrice" := NumCol (map (default F64.nan) prices)]> df).

(** Lines 53-56. *)
Definition valuation (df : frame) : result frame :=
  cv ← binop PrimFloat.mul df "LivePrice" "Quantity";
  let df := <["CurrentValue" := cv]> df in
  iv ← binop PrimFloat.mul df "BuyPrice" "Quantity";
  let df := <["InvestedValue" := iv]> df in
  pl ← binop PrimFloat.sub df "CurrentValue" "InvestedValue";
  let df := <["P/L" := pl]> df in
  q ← binop PrimFloat.div df "P/L" "InvestedValue";
  r ← as_num q;
  Ok (<["Returns %" := NumCol (map (λ x, x * 100) r)]> df).

(** Line 61: whole days held, over 365. *)
Definition years_held (df : frame) : result frame :=
  col ← getitem df "BuyDate"; days ← as_day col;
  Ok (<["Years" := NumCol (map (λ d, F64.of_Z (today - d) / 365) days)]> df).

(** Line 62: [calculate_cagr] on every row. *)
Definition cagr_column (df : frame) : result frame :=
  b ← getitem df "BuyPrice"; l ← getitem df "LivePrice"; y ← getitem df "Years";
  bs ← as_num b; ls ← as_num l; ys ← as_num y;
  cs ← mapM (λ x, calculate_cagr pow_rest x.1.1 x.1.2 x.2) (zip (zip bs ls) ys);
  Ok (<["CAGR" := NumCol cs]> df).

(** Line 65. *)
Definition sector_column (df : frame) : result frame :=
  col ← getitem df "Symbol"; symbols ← as_str col;
  Ok (<["Sector" := StrCol (map (get_sector gw) symbols)]> df).

(** Lines 50-65 in order. *)
Definition enrich (df : frame) : result frame :=
  df ← live_prices df;
  df ← valuation df;
  df ← years_held df;
  df ← cagr_column df;
  sector_column df.

(** ** Aggregates, lines 74-75 and 85 *)

Definition column_sum (df : frame) (c : string) : result float :=
  col ← getitem df c; xs ← as_num col; Ok (nansum xs).

Definition total_invested (df : frame) : result float := column_sum df "InvestedValue".
Definition total_current (df : frame) : result float := column_sum df "CurrentValue".

Definition sector_data (df : frame) : result (gmap string float) :=
  s ← getitem df "Sector"; v ← getitem df "CurrentValue";
  sectors ← as_str s; values ← as_num v;
  Ok (groupby_sum sectors values).

(** ** Risk table, lines 93-100 *)

Definition risk_row (symbol : string) : option (string * float * float) :=
  let hist := history gw symbol "1y" in
  if negb (empty hist) then
    let '(vol, avg_return) := risk_record hist in
    Some (symbol, vol, avg_return)
  else None.

Definition returns_data (symbols : list string) : list (string * float * float) :=
  omap risk_row symbols.

(** ** Benchmark comparison, lines 117-121 *)

Definition nifty_return : result float :=
  let nifty := history gw "^NSEI" "1y" in
  last_close ← iloc_last nifty;
  first_close ← iloc_first nifty;
  Ok ((last_close - first_close) / first_close * 100).

Definition portfolio_return (total_current total_invested : float) : float :=
  (total_current - total_invested) / total_invested * 100.
End Columns.

(** ** The Streamlit page *)

Inductive widget : Type :=
  | Title (text : string)
  | Success (text : string)
  | Header (text : string)
  | Subheader (text : string)
  | Notice (text : string)
  | Dataframe (df : frame)
  | Metric (label : string) (value : float)
  | PieChart (sectors : gmap string float)
  | RiskTable (risk_df : list (string * float * float))
  | ScatterChart (risk_df : list (string * float * float)).

(** The widgets that show a result of the analysis. *)
Definition is_result (w : widget) : bool :=
  match w with
  | Dataframe _ | Metric _ _ | PieChart _ | RiskTable _ | ScatterChart _ => true
  | _ => false
  end.

(** A script run: the widgets rendered so far, and how the run went on.
    What was rendered before an exception stays on the page. *)
Definition ui (A : Type) : Type := list widget * result A.

#[global] Instance ui_ret : MRet ui := fun _ a => ([], Ok a).
#[global] Instance ui_bind : MBind ui := fun _ _ k m =>
  match m.2 with
  | Ok a => ((m.1 ++ (k a).1)%list, (k a).2)
  | Raise e => (m.1, Raise e)
  end.

Definition st (w : widget) : ui unit := ([w], Ok tt).
Definition lift {A} (r : result A) : ui A := ([], r).

(** The uploaded file: its name, and what [pd.read_csv] and
    [pd.read_excel] make of its bytes. *)
Record upload : Type := {
  name : string;
  read_csv : result frame;
  read_excel : result frame
}.

Definition endswith (s suffix : string) : bool :=
  let n := String.length s in
  let k := String.length suffix in
  (k <=? n)%nat && String.eqb (substring (n - k) k s) suffix.

(** The frame an upload decodes to, line 44. *)
Definition decoded (f : upload) : result frame :=
  if endswith (name f) "csv" then read_csv f else read_excel f.

Section Script.
Local Open Scope float_scope.
Variable pow_rest : float → float → result float.
Variable gw : gateway.
Variable today : Z.

(** Lines 44-125, the body of [if uploaded_file:]. *)
Definition analysis (uploaded_file : upload) : ui unit :=
  df ← lift (decoded uploaded_file);
  _ ← st (Success "File uploaded successfully!");
  _ ← st (Subheader "Fetching Live Prices...");
  df ← lift (live_prices gw df);
  df ← lift (valuation df);
  _ ← st (Subheader "CAGR & Portfolio Returns");
  df ← lift (years_held today df);
  df ← lift (cagr_column pow_rest df);
  df ← lift (sector_column gw df);
  _ ← st (Dataframe df);
  _ ← st (Header "Portfolio Summary");
  total_invested ← lift (total_invested df);
  total_current ← lift (total_current df);
  _ ← st (Metric "Total Invested" total_invested);
  _ ← st (Metric "Current Value" total_current);
  _ ← st (Metric "Total P/L" (total_current - total_invested));
  _ ← st (Subheader "Sector Allocation");
  sector_data ← lift (sector_data df);
  _ ← st (PieChart sector_data);
  _ ← st (Subheader "Volatility & Risk Analysis");
  col ← lift (getitem df "Symbol"); symbols ← lift (as_str col);
  let returns_data := returns_data gw symbols in
  _ ← (if negb (empty returns_data)
       then _ ← st (RiskTable returns_data); st (ScatterChart returns_data)
       else mret tt);
  _ ← st (Subheader "Portfolio vs NIFTY 50 Comparison");
  portfolio_value ← lift (column_sum df "CurrentValue");
  nifty_return ← lift (nifty_return gw);
  let portfolio_return := portfolio_return total_current total_invested in
  _ ← st (Metric "Portfolio Return (1Y)" portfolio_return);
  st (Metric "NIFTY 50 Return (1Y)" nifty_return).

(** The whole script: the title, the analysis when a file was
    uploaded, and the closing notice of line 130. *)
Definition run (uploaded_file : option upload) : ui unit :=
  _ ← st (Title "Portfolio Analyzer (Live Stock Analysis)");
  _ ← match uploaded_file with
      | Some f => analysis f
      | None => mret tt
      end;
  st (Notice "Upload your CSV to begin portfolio analysis.").
End Script.

(** ** The upload's schema *)

Definition required_columns : list string :=
  ["Symbol"; "Quantity"; "BuyPrice"; "BuyDate"].

Definition is_str (col : column) : Prop := ∃ l, col = StrCol l.
Definition is_num (col : column) : Prop := ∃ l, col = NumCol l.
Definition is_day (col : column) : Prop := ∃ l, col = DayCol l.

(** The required columns that are present hold what their names
    promise: symbols are strings, quantities and prices are numbers,
    buy dates are dates. *)
Definition well_typed (df : frame) : Prop :=
  (∀ col, df !! "Symbol" = Some col → is_str col) ∧
  (∀ col, df !! "Quantity" = Some col → is_num col) ∧
  (∀ col, df !! "BuyPrice" = Some col → is_num col) ∧
  (∀ col, df !! "BuyDate" = Some col → is_day col).

(** ** The statistics as the specification words them

    Daily simple returns over consecutive closes, their mean, and their
    sample standard deviation (divisor [n - 1], the default of
    [Series.std]); no cell is skipped. *)

Section Statistics.
Context {F : Type} `{Arith F}.

Definition simple_returns (closes : list F) : list F :=
  zip_with (λ prev cur, f_div (f_sub cur prev) prev) closes (tail closes).

Definition fsum (l : list F) : F := fold_left f_add l (f_of_Z 0).

Definition mean (l : list F) : F :=
  match l with
  | [] => f_nan
  | _ :: _ => f_div (fsum l) (f_of_Z (Z.of_nat (length l)))
  end.

Definition stdev (l : list F) : F :=
  if (length l <=? 1)%nat then f_nan
  else
    let m := mean l in
    f_sqrt (f_div (fsum (map (λ x, f_mul (f_sub x m) (f_sub x m)) l))
                  (f_of_Z (Z.of_nat (length l) - 1))).

Definition spec_risk_record (closes : list F) : F * F :=
  let r := simple_returns closes in
  (f_mul (stdev r) (f_sqrt (f_of_Z 252)), f_mul (mean r) (f_of_Z 252)).

(** [sum(sectorAllocation.values())]. *)
Definition allocation_total (m : gmap string F) : F :=
  map_fold (λ _ v acc, f_add acc v) (f_of_Z 0) m.
End Statistics.

(** ** Columns the script adds to the uploaded table (lines 50-65) *)

Definition derived_columns : list string :=
  ["LivePrice"; "CurrentValue"; "InvestedValue"; "P/L"; "Returns %"; "Years"; "CAGR";
   "Sector"].

(** ** Reading the page *)

(** [w] on the page, then the rest of the run. *)
Definition emit {A} (w : widget) (m : ui A) : ui A := (w :: m.1, m.2).

(** A widget other than the closing [st.info] notice. *)
Definition not_notice (w : widget) : Prop := ∀ text, w ≠ Notice text.

(** ** Maximum drawdown (lines 21-24)

    [calculate_drawdown] compares cells, so it needs an order beside the
    arithmetic: [x < y], false when either side is NaN. *)

Class Order (F : Type) : Type := { f_ltb : F → F → bool }.

#[global] Instance binary64_order : Order float := {| f_ltb := PrimFloat.ltb |}.

Definition ideal_ltb (x y : option R) : bool :=
  match x, y with
  | Some a, Some b => if Rlt_dec a b then true else false
  | _, _ => false
  end.

#[global] Instance ideal_order : Order (option R) := {| f_ltb := ideal_ltb |}.

Section Drawdown.
Context {F : Type} `{Arith F} `{Order F}.

(** [Series.cummax()]: the running maximum of the cells that are not
    NaN, [mval] being the maximum so far; a NaN cell stays NaN. *)
Fixpoint cummax_from (mval : option F) (s : list F) : list F :=
  match s with
  | [] => []
  | v :: s' =>
      if f_isnan v then v :: cummax_from mval s'
      else
        let m := match mval with
                 | Some m => if f_ltb m v then v else m
                 | None => v
                 end in
        m :: cummax_from (Some m) s'
  end.

(** [Series.min()]: the least cell that is not NaN, NaN when there is
    none. *)
Definition nanmin (s : list F) : F :=
  match filter (λ v, f_isnan v = false) s with
  | [] => f_nan
  | v :: l => fold_left (λ m x, if f_ltb x m then x else m) l v
  end.

(** [calculate_drawdown], lines 21-24. *)
Definition calculate_drawdown (series : list F) : F :=
  let cummax := cummax_from None series in
  let drawdown := zip_with f_div (zip_with f_sub series cummax) cummax in
  nanmin drawdown.
End Drawdown.

(** A price that is quoted and positive, in exact arithmetic. *)
Definition positive_price (c : option R) : Prop := ∃ r, c = Some r ∧ (0 < r)%R.

(** A positive price [s] under its running maximum [c]. *)
Definition below_peak (s c : option R) : Prop :=
  ∃ a b, s = Some a ∧ c = Some b ∧ (0 < a <= b)%R.

(** A relative fall from the peak: above -1, at most 0. *)
Definition loss (x : option R) : Prop := ∃ d, x = Some d ∧ (-1 < d <= 0)%R.

(** ** Sample inputs *)

Module Sample.
Local Open Scope float_scope.

(** A power function that knows the exponent 1/2 only, as the square
    root; every other call reports a range error. *)
Definition pow_half (x y : float) : result float :=
  if y =? 0.5 then Ok (PrimFloat.sqrt x) else Raise OverflowError.

(** A market where [X] trades at 150 with a four-day history, [NEW]
    was listed today (one close), [GONE] is unknown, and the index
    [^NSEI] has a history when [benchmark] holds. *)
Definition market (benchmark : bool) : gateway := {|
  history := λ symbol period,
    if String.eqb symbol "X" then
      if String.eqb period "1d" then [150] else [100; 102; 101; 105]
    else if String.eqb symbol "NEW" then [42]
    else if String.eqb symbol "^NSEI" then
      if benchmark then [20000; 22000] else []
    else [];
  info := λ symbol,
    if String.eqb symbol "X" then Ok {[ "sector" := "Technology" ]}
    else Raise (KeyError symbol)
|}.

Definition table (symbols : list string) (quantities prices : list float)
    (dates : list Z) : frame :=
  <["Symbol" := StrCol symbols]> (<["Quantity" := NumCol quantities]>
    (<["BuyPrice" := NumCol prices]> (<["BuyDate" := DayCol dates]> ∅))).

(** Ten shares of [X] bought at 100 on day 0. *)
Definition holding : frame := table ["X"] [10] [100] [0%Z].
(** Ten shares of [X] received at no cost. *)
Definition gift : frame := table ["X"] [10] [0] [0%Z].
(** Five shares of a symbol the market no longer knows, received at
    no cost. *)
Definition delisted : frame := table ["GONE"] [5] [0] [0%Z].
(** Two positions, the second in the symbol the market no longer
    knows, bought at 80 on day 365. *)
Definition portfolio : frame := table ["X"; "GONE"] [10; 5] [100; 80] [0%Z; 365%Z].
(** [holding] and [gift] once the live price of [X] is in. *)
Definition priced (df : frame) : frame := <["LivePrice" := NumCol [150]]> df.

Definition csv_file (df : frame) : upload :=
  {| name := "portfolio.csv"; read_csv := Ok df; read_excel := Raise ParserError |}.
End Sample.

(** * Properties *)

(** ** Facts about binary64 values, from the kernel's specification *)

Module F64Facts.
Local Open Scope float_scope.

Lemma is_nan_spec x :
  is_nan x = match Prim2SF x with S754_nan => true | _ => false end.
Proof.
  unfold is_nan. rewrite FloatAxioms.eqb_spec. unfold SFeqb.
  destruct (Prim2SF x) as [s|s| |s m e]; simpl; try reflexivity.
  - destruct s; reflexivity.
  - rewrite Z.compare_refl.
    assert (Hm : PosDef.Pos.compare_cont Eq m m = Eq) by apply Pos.compare_refl.
    rewrite Hm. destruct s; reflexivity.
Qed.

Lemma is_infinity_spec x :
  is_infinity x = match Prim2SF x with S754_infinity _ => true | _ => false end.
Proof.
  unfold is_infinity. rewrite FloatAxioms.eqb_spec, abs_spec. unfold SFeqb.
  destruct (Prim2SF x) as [s|s| |s m e]; reflexivity.
Qed.

Lemma is_zero_spec x :
  F64.is_zero x = match Prim2SF x with S754_zero _ => true | _ => false end.
Proof.
  unfold F64.is_zero. rewrite FloatAxioms.eqb_spec. unfold SFeqb.
  change (Prim2SF 0) with (S754_zero false).
  destruct (Prim2SF x) as [s|s| |s m e]; simpl; try reflexivity; destruct s; reflexivity.
Qed.

Lemma positive_spec x :
  F64.positive x = match Prim2SF x with
                   | S754_infinity s | S754_finite s _ _ => negb s
                   | _ => false
                   end.
Proof.
  unfold F64.positive. rewrite ltb_spec. unfold SFltb.
  change (Prim2SF 0) with (S754_zero false).
  destruct (Prim2SF x) as [s|s| |s m e]; simpl; try reflexivity; destruct s; reflexivity.
Qed.

Lemma nonpositive_spec x :
  (x <=? 0) = match Prim2SF x with
              | S754_zero _ => true
              | S754_infinity s | S754_finite s _ _ => s
              | S754_nan => false
              end.
Proof.
  rewrite leb_spec. unfold SFleb.
  change (Prim2SF 0) with (S754_zero false).
  destruct (Prim2SF x) as [s|s| |s m e]; simpl; try reflexivity; destruct s; reflexivity.
Qed.

Lemma positive_nonzero x : F64.positive x = true → F64.is_zero x = false.
Proof. rewrite positive_spec, is_zero_spec. destruct (Prim2SF x); congruence. Qed.

Lemma nonpositive_not_positive x : (x <=? 0) = true → F64.positive x = false.
Proof.
  rewrite positive_spec, nonpositive_spec.
  destruct (Prim2SF x) as [s|s| |s m e]; try congruence; intros ->; reflexivity.
Qed.

Lemma mul_nan_l y : F64.nan * y = F64.nan.
Proof. apply Prim2SF_inj. rewrite mul_spec. reflexivity. Qed.

Lemma sub_nan_l y : F64.nan - y = F64.nan.
Proof. apply Prim2SF_inj. rewrite sub_spec. reflexivity. Qed.

Lemma div_nan_l y : F64.nan / y = F64.nan.
Proof. apply Prim2SF_inj. rewrite div_spec. reflexivity. Qed.

Lemma div_nan_r x : x / F64.nan = F64.nan.
Proof.
  apply Prim2SF_inj. rewrite div_spec.
  change (Prim2SF F64.nan) with S754_nan. destruct (Prim2SF x); reflexivity.
Qed.

Lemma is_nan_eq x : is_nan x = true → x = F64.nan.
Proof.
  rewrite is_nan_spec. intros Hx. apply Prim2SF_inj.
  destruct (Prim2SF x); try discriminate. reflexivity.
Qed.

(** Division by a zero gives NaN from a zero or NaN numerator and an
    infinity from any other; scaling by 100 keeps both. *)
Lemma percent_of_zero pl iv :
  F64.is_zero iv = true →
  is_finite (pl / iv * 100) = false ∧
  is_nan (pl / iv * 100) = is_nan pl || F64.is_zero pl.
Proof.
  rewrite is_zero_spec. intros Hiv.
  unfold is_finite.
  rewrite !is_nan_spec, is_infinity_spec, (is_zero_spec pl), mul_spec, div_spec.
  destruct (Prim2SF iv) as [si|si| |si mi ei]; try discriminate.
  destruct (Prim2SF pl) as [s|s| |s m e]; split; reflexivity.
Qed.
End F64Facts.

(** ** Live price lookup *)

Lemma iloc_last_nonempty (x : float) (s : list float) :
  ∃ y, iloc_last (x :: s) = Ok y.
Proof.
  unfold iloc_last. destruct (last (x :: s)) as [y|] eqn:Hl; [eauto|].
  apply last_None in Hl. discriminate.
Qed.

(** The emptiness test comes before the access to the last row, so the
    lookup returns on every answer of the market. *)
Lemma get_live_price_total (gw : gateway) (symbol : string) :
  ∃ price, get_live_price gw symbol = Ok price.
Proof.
  unfold get_live_price. destruct (history gw symbol "1d") as [|x s]; simpl.
  - eauto.
  - destruct (iloc_last_nonempty x s) as [y ->]. simpl. eauto.
Qed.

(** C10.  When the one-day history of a symbol is empty,
    [get_live_price] returns [None]: the last row is read only after
    the emptiness test, so no exception is raised. *)
Theorem get_live_price_empty (gw : gateway) (symbol : string) :
  history gw symbol "1d" = [] → get_live_price gw symbol = Ok None.
Proof. intros Hempty. unfold get_live_price. rewrite Hempty. reflexivity. Qed.

Lemma get_live_price_empty_witness :
  history (Sample.market true) "GONE" "1d" = [] ∧
  get_live_price (Sample.market true) "GONE" = Ok None.
Proof.
  split; [reflexivity|].
  apply (get_live_price_empty (Sample.market true) "GONE"). reflexivity.
Defined.

(** ** Compound annual growth rate *)

Section Cagr.
Local Open Scope float_scope.
Variable pow_rest : float → float → result float.

Lemma calculate_cagr_not_positive (start_value end_value years : float) :
  F64.positive start_value = false →
  calculate_cagr pow_rest start_value end_value years = Ok 0.
Proof. intros Hs. unfold calculate_cagr. rewrite Hs. reflexivity. Qed.

Lemma calculate_cagr_formula (start_value end_value years : float) :
  F64.positive start_value = true →
  F64.is_zero years = false →
  calculate_cagr pow_rest start_value end_value years =
    p ← float_pow pow_rest (end_value / start_value) (1 / years); Ok (p - 1).
Proof.
  intros Hs Hy. unfold calculate_cagr, py_div.
  rewrite Hs, (F64Facts.positive_nonzero _ Hs), Hy. reflexivity.
Qed.

(** A holding bought today: the exponent [1/years] divides by zero. *)
Lemma calculate_cagr_years_zero (start_value end_value years : float) :
  F64.positive start_value = true →
  F64.is_zero years = true →
  calculate_cagr pow_rest start_value end_value years = Raise ZeroDivisionError.
Proof.
  intros Hs Hy. unfold calculate_cagr, py_div.
  rewrite Hs, (F64Facts.positive_nonzero _ Hs), Hy. reflexivity.
Qed.

(** With the price missing the ratio is NaN, and NaN to a power is
    NaN unless the exponent is zero. *)
Lemma calculate_cagr_nan_price (start_value years : float) :
  F64.positive start_value = true →
  F64.is_zero years = false →
  calculate_cagr pow_rest start_value F64.nan years =
    Ok (if 1 / years =? 0 then 0 else F64.nan).
Proof.
  intros Hs Hy. rewrite calculate_cagr_formula by assumption.
  rewrite F64Facts.div_nan_l. unfold float_pow.
  destruct (1 / years =? 0); reflexivity.
Qed.
End Cagr.




(** ** Reading results and frames *)

Lemma bind_ok_inv {A B} (m : result A) (k : A → result B) (b : B) :
  m ≫= k = Ok b → ∃ a, m = Ok a ∧ k a = Ok b.
Proof. destruct m as [a|e]; simpl; [eauto|discriminate]. Qed.

Lemma Ok_inj {A} (a b : A) : Ok a = Ok b → a = b.
Proof. congruence. Qed.

Lemma getitem_inv (df : frame) (c : string) (col : column) :
  getitem df c = Ok col → df !! c = Some col.
Proof. unfold getitem. destruct (df !! c); congruence. Qed.

Lemma as_num_inv (col : column) (l : list float) : as_num col = Ok l → col = NumCol l.
Proof. destruct col; simpl; congruence. Qed.

Lemma as_str_inv (col : column) (l : list string) : as_str col = Ok l → col = StrCol l.
Proof. destruct col; simpl; congruence. Qed.

Lemma as_day_inv (col : column) (l : list Z) : as_day col = Ok l → col = DayCol l.
Proof. destruct col; simpl; congruence. Qed.

Lemma binop_inv op (df : frame) (a b : string) (col : column) :
  binop op df a b = Ok col →
  ∃ xs ys, df !! a = Some (NumCol xs) ∧ df !! b = Some (NumCol ys) ∧
           col = NumCol (zip_with op xs ys).
Proof.
  unfold binop. intros H.
  apply bind_ok_inv in H as (x & Hx & H). apply bind_ok_inv in H as (y & Hy & H).
  apply bind_ok_inv in H as (xs & Hxs & H). apply bind_ok_inv in H as (ys & Hys & H).
  apply getitem_inv in Hx, Hy. apply as_num_inv in Hxs, Hys. subst.
  exists xs, ys. repeat split; try assumption. congruence.
Qed.

(** ** Valuation columns *)

(** What lines 53-56 leave in the frame. *)
Lemma valuation_inv (df df' : frame) :
  valuation df = Ok df' →
  ∃ lp q bp,
    df !! "LivePrice" = Some (NumCol lp) ∧
    df !! "Quantity" = Some (NumCol q) ∧
    df !! "BuyPrice" = Some (NumCol bp) ∧
    let cv := zip_with PrimFloat.mul lp q in
    let iv := zip_with PrimFloat.mul bp q in
    let pl := zip_with PrimFloat.sub cv iv in
    let r := map (λ x, x * 100)%float (zip_with PrimFloat.div pl iv) in
    df' = <["Returns %" := NumCol r]> (<["P/L" := NumCol pl]>
            (<["InvestedValue" := NumCol iv]> (<["CurrentValue" := NumCol cv]> df))).
Proof.
  unfold valuation. intros H.
  apply bind_ok_inv in H as (cv & Hcv & H). apply binop_inv in Hcv as (lp & q & Hlp & Hq & ->).
  apply bind_ok_inv in H as (iv & Hiv & H). apply binop_inv in Hiv as (bp & q' & Hbp & Hq' & ->).
  apply bind_ok_inv in H as (pl & Hpl & H). apply binop_inv in Hpl as (cv' & iv' & Hcv' & Hiv' & ->).
  apply bind_ok_inv in H as (r & Hr & H). apply binop_inv in Hr as (pl' & iv'' & Hpl' & Hiv'' & ->).
  simpl in H. simplify_map_eq. by exists lp, q, bp.
Qed.

(** The valuation goes through on every frame that has the three
    numeric columns. *)
Lemma valuation_total (df : frame) (lp q bp : list float) :
  df !! "LivePrice" = Some (NumCol lp) →
  df !! "Quantity" = Some (NumCol q) →
  df !! "BuyPrice" = Some (NumCol bp) →
  ∃ df', valuation df = Ok df'.
Proof.
  intros Hlp Hq Hbp. unfold valuation, binop, getitem.
  simplify_map_eq. simpl. eauto.
Qed.

Section ValuationRows.
Local Open Scope float_scope.





End ValuationRows.

(** ** Risk table *)

Section RiskTable.
Local Open Scope float_scope.
Variable gw : gateway.

(** One close gives no return: the only cell of [pct_change] is NaN,
    and so are both statistics. *)
Lemma risk_record_single (c : float) : risk_record [c] = (F64.nan, F64.nan).
Proof.
  unfold risk_record, pct_change, shift1. simpl.
  change f_nan with F64.nan. change f_div with PrimFloat.div. change f_sub with PrimFloat.sub.
  rewrite F64Facts.div_nan_r, F64Facts.sub_nan_l. reflexivity.
Qed.

Lemma risk_row_Some (symbol : string) (row : string * float * float) :
  risk_row gw symbol = Some row →
  row.1.1 = symbol ∧ history gw symbol "1y" ≠ [].
Proof.
  unfold risk_row. destruct (history gw symbol "1y") as [|c hist]; simpl; [discriminate|].
  destruct (risk_record (c :: hist)) as [vol avg]. intros [= <-]. done.
Qed.

Lemma risk_row_nonempty (symbol : string) :
  history gw symbol "1y" ≠ [] →
  risk_row gw symbol = Some (symbol, (risk_record (history gw symbol "1y")).1,
                                     (risk_record (history gw symbol "1y")).2).
Proof.
  unfold risk_row. destruct (history gw symbol "1y") as [|c hist]; [done|]. intros _. simpl.
  destruct (risk_record (c :: hist)) as [vol avg]. reflexivity.
Qed.

(** C3, as the code has it.  The risk table lists exactly the
    symbols of the portfolio whose one-year history is not empty: a
    symbol with an empty history is skipped, without an error, and
    never appears; a symbol with a single close does appear, with NaN
    for both its volatility and its annual return. *)
Theorem risk_table_membership (symbols : list string) (symbol : string) :
  (symbol ∈ (returns_data gw symbols).*1.*1 ↔
     symbol ∈ symbols ∧ history gw symbol "1y" ≠ []) ∧
  (∀ c, symbol ∈ symbols → history gw symbol "1y" = [c] →
     (symbol, F64.nan, F64.nan) ∈ returns_data gw symbols).
Proof.
  split; [split|].
  - intros Hin. apply list_elem_of_fmap in Hin as (sv & -> & Hin).
    apply list_elem_of_fmap in Hin as (row & -> & Hin).
    apply list_elem_of_omap in Hin as (s & Hs & Hrow).
    apply risk_row_Some in Hrow as [-> Hne]. done.
  - intros [Hin Hne]. apply list_elem_of_fmap.
    eexists (symbol, _). split; [reflexivity|].
    apply list_elem_of_fmap. eexists (symbol, _, _). split; [reflexivity|].
    apply list_elem_of_omap. exists symbol. split; [done|].
    by apply risk_row_nonempty.
  - intros c Hin Hc. apply list_elem_of_omap. exists symbol. split; [done|].
    rewrite risk_row_nonempty by (rewrite Hc; done).
    rewrite Hc, risk_record_single. reflexivity.
Qed.
End RiskTable.

Lemma risk_table_membership_witness :
  ("NEW", F64.nan, F64.nan) ∈ returns_data (Sample.market true) ["X"; "NEW"; "GONE"] ∧
  "GONE" ∉ (returns_data (Sample.market true) ["X"; "NEW"; "GONE"]).*1.*1.
Proof.
  split.
  - apply (proj2 (risk_table_membership (Sample.market true) ["X"; "NEW"; "GONE"] "NEW")
             42%float); [set_solver|reflexivity].
  - intros Hin.
    apply (proj1 (risk_table_membership (Sample.market true) ["X"; "NEW"; "GONE"] "GONE"))
      in Hin as [_ Hne].
    by apply Hne.
Defined.

(** C3 fails on a history of one close: [NEW], listed today, has a
    single close, fewer than two, and is in the risk table. *)
Lemma risk_table_single_point :
  length (history (Sample.market true) "NEW" "1y") = 1%nat ∧
  returns_data (Sample.market true) ["NEW"] = [("NEW", F64.nan, F64.nan)].
Proof. split; reflexivity. Qed.

(** ** Reductions that skip NaN *)

Section SkipNaN.
Context {F : Type} `{Arith F}.

Lemma fold_nan_add_present (l : list F) (acc : F) :
  Forall present l → fold_left nan_add l acc = fold_left f_add l acc.
Proof.
  intros Hl. revert acc. induction Hl as [|v l Hv _ IH]; intros acc; [done|].
  simpl. unfold nan_add at 2. rewrite Hv. apply IH.
Qed.

Lemma nansum_present (l : list F) : Forall present l → nansum l = fsum l.
Proof. apply fold_nan_add_present. Qed.

Lemma nansum_cons_nan (v : F) (l : list F) : f_isnan v = true → nansum (v :: l) = nansum l.
Proof. intros Hv. unfold nansum. simpl. unfold nan_add at 2. by rewrite Hv. Qed.

Lemma count_present (l : list F) : Forall present l → count l = length l.
Proof.
  intros Hl. unfold count. induction Hl as [|v l Hv _ IH]; [done|].
  rewrite filter_cons_True by done. simpl. by rewrite IH.
Qed.

Lemma count_cons_nan (v : F) (l : list F) : f_isnan v = true → count (v :: l) = count l.
Proof. intros Hv. unfold count. rewrite filter_cons_False; [done|]. congruence. Qed.

(** [shift(1)] lines every close up with the one before it. *)
Lemma zip_with_removelast {A B C} (f : A → B → C) (l : list A) (k : list B) :
  length k = S (length l) → zip_with f l (removelast k) = zip_with f l k.
Proof.
  revert k. induction l as [|a l IH]; intros k Hk; [reflexivity|].
  destruct k as [|b [|b' k]]; simpl in Hk; try lia.
  change (removelast (b :: b' :: k)) with (b :: removelast (b' :: k)).
  simpl. f_equal. apply (IH (b' :: k)). simpl. lia.
Qed.

Lemma pct_change_cons (c : F) (closes : list F) :
  pct_change (c :: closes) =
    f_sub (f_div c f_nan) (f_of_Z 1) ::
    zip_with (λ x prev, f_sub (f_div x prev) (f_of_Z 1)) closes (c :: closes).
Proof.
  unfold pct_change, shift1.
  change (zip_with ?f (c :: closes) (f_nan :: ?k)) with (f c f_nan :: zip_with f closes k).
  f_equal. apply zip_with_removelast. done.
Qed.
End SkipNaN.

(** ** Risk statistics in exact arithmetic *)

Section IdealRisk.
Local Open Scope R_scope.

Lemma present_Some (r : R) : present (Some r).
Proof. reflexivity. Qed.

Lemma return_agrees (prev cur : option R) :
  quoted prev → is_Some cur →
  f_sub (f_div cur prev) (f_of_Z 1) = f_div (f_sub cur prev) prev ∧
  is_Some (f_div (f_sub cur prev) prev).
Proof.
  intros (p & -> & Hp) [c ->]. simpl. unfold Ideal.div, Ideal.lift2.
  destruct (Req_EM_T p 0) as [|_]; [done|]. split; [|eauto].
  f_equal. field. done.
Qed.

Lemma returns_agree (closes : list (option R)) :
  Forall quoted closes →
  zip_with (λ x prev, f_sub (f_div x prev) (f_of_Z 1)) (tail closes) closes =
    simple_returns closes ∧
  Forall is_Some (simple_returns closes).
Proof.
  unfold simple_returns.
  induction 1 as [|c closes Hc Hcs [IHeq IHsome]]; [done|].
  destruct closes as [|c' closes]; [done|].
  simpl in *. apply Forall_cons_1 in Hcs as [Hc' _].
  destruct (return_agrees c c' Hc) as [Heq Hsome].
  { destruct Hc' as (r & -> & _). eauto. }
  split.
  - f_equal; assumption.
  - constructor; assumption.
Qed.

Lemma Forall_Some_present (l : list (option R)) : Forall is_Some l → Forall present l.
Proof. intros Hl. eapply Forall_impl; [exact Hl|]. by intros v [r ->]. Qed.

Lemma fold_add_Some (l : list (option R)) (acc : option R) :
  Forall is_Some l → is_Some acc → is_Some (fold_left f_add l acc).
Proof.
  intros Hl. revert acc. induction Hl as [|v l [r ->] _ IH]; intros acc Hacc; [done|].
  simpl. apply IH. destruct Hacc as [a ->]. by eexists.
Qed.

Lemma mean_Some (rs : list (option R)) :
  rs ≠ [] → Forall is_Some rs → is_Some (mean rs).
Proof.
  intros Hne Hrs. destruct rs as [|r rs]; [done|].
  unfold mean, fsum.
  destruct (fold_add_Some (r :: rs) (f_of_Z 0) Hrs) as [s ->]; [by eexists|].
  simpl. unfold Ideal.div. destruct (Req_EM_T _ 0) as [Hz|_]; [|by eexists].
  apply eq_IZR_R0 in Hz. lia.
Qed.

Lemma nanmean_skip (rs : list (option R)) :
  Forall is_Some rs → nanmean (None :: rs) = mean rs.
Proof.
  intros Hrs. pose proof (Forall_Some_present rs Hrs) as Hp.
  unfold nanmean, mean. rewrite count_cons_nan, count_present by done.
  destruct rs as [|r rs]; [done|].
  rewrite nansum_cons_nan, nansum_present by done. reflexivity.
Qed.

Lemma squared_deviation (m v : option R) :
  f_mul (f_sub m v) (f_sub m v) = f_mul (f_sub v m) (f_sub v m).
Proof. destruct m, v; simpl; try done. f_equal. ring. Qed.

Lemma nanstd_skip (rs : list (option R)) :
  Forall is_Some rs → nanstd (None :: rs) = stdev rs.
Proof.
  intros Hrs. pose proof (Forall_Some_present rs Hrs) as Hp.
  unfold nanstd, nanvar, stdev. rewrite count_cons_nan, count_present by done.
  destruct (length rs <=? 1)%nat eqn:Hn; [done|].
  apply Nat.leb_gt in Hn.
  assert (Hne : rs ≠ []) by (intros ->; simpl in Hn; lia).
  destruct (mean_Some rs Hne Hrs) as [m Hm].
  assert (Havg : f_div (nansum (None :: rs)) (f_of_Z (Z.of_nat (length rs))) = Some m).
  { rewrite nansum_cons_nan, nansum_present by done. rewrite <- Hm.
    unfold mean. by destruct rs. }
  rewrite Havg, Hm. f_equal. f_equal.
  change (map ?g (None :: rs)) with (None :: map g rs).
  rewrite nansum_cons_nan by done.
  assert (Hmap : map (λ v : option R, if f_isnan v then v
                        else f_mul (f_sub (Some m) v) (f_sub (Some m) v)) rs
                 = map (λ x, f_mul (f_sub x (Some m)) (f_sub x (Some m))) rs).
  { apply map_ext_Forall. eapply Forall_impl; [exact Hrs|].
    intros v [r ->]. apply (squared_deviation (Some m) (Some r)). }
  rewrite Hmap. apply nansum_present.
  apply Forall_fmap. eapply Forall_impl; [exact Hrs|]. by intros v [r ->].
Qed.

End IdealRisk.


(** The same history in binary64: four cells of [pct_change], the first
    NaN, and three returns counted by the statistics. *)
Example pct_change_four_closes :
  pct_change [100; 102; 101; 105]%float =
    [F64.nan; 102 / 100 - 1; 101 / 102 - 1; 105 / 101 - 1]%float ∧
  count (pct_change [100; 102; 101; 105]%float) = 3%nat.
Proof. split; reflexivity. Qed.

(** ** Sector allocation *)

Section Allocation.
Context {F : Type} `{Arith F}.
Hypothesis add_comm : ∀ x y : F, f_add x y = f_add y x.
Hypothesis add_assoc : ∀ x y z : F, f_add (f_add x y) z = f_add x (f_add y z).
Hypothesis add_0_l : ∀ x : F, f_add (f_of_Z 0) x = x.

Lemma add_swap (acc x y : F) : f_add (f_add acc x) y = f_add (f_add acc y) x.
Proof. by rewrite !add_assoc, (add_comm x y). Qed.

Lemma allocation_total_insert (m : gmap string F) (k : string) (x : F) :
  m !! k = None → allocation_total (<[k := x]> m) = f_add (allocation_total m) x.
Proof.
  intros Hk. unfold allocation_total.
  rewrite map_fold_insert_L; [done| |done]. intros. apply add_swap.
Qed.

Lemma allocation_total_lookup (m : gmap string F) (k : string) (x : F) :
  m !! k = Some x → allocation_total m = f_add (allocation_total (delete k m)) x.
Proof.
  intros Hk. unfold allocation_total.
  rewrite (map_fold_delete_L _ _ k x m); [done| |done]. intros. apply add_swap.
Qed.

(** One more row raises the total by its value, or leaves it when
    the value is NaN. *)
Lemma allocation_total_row (m : gmap string F) (k : string) (v : F) :
  allocation_total (<[k := nan_add (default (f_of_Z 0) (m !! k)) v]> m) =
    nan_add (allocation_total m) v.
Proof.
  destruct (m !! k) as [x|] eqn:Hk; simpl.
  - rewrite <- (insert_delete_eq m k). rewrite allocation_total_insert by apply lookup_delete_eq.
    rewrite (allocation_total_lookup m k x Hk). unfold nan_add.
    destruct (f_isnan v); [done|]. by rewrite add_assoc.
  - rewrite allocation_total_insert by done. unfold nan_add.
    destruct (f_isnan v).
    + by rewrite add_comm, add_0_l.
    + by rewrite add_0_l.
Qed.

Lemma groupby_total (rows : list (string * F)) (m : gmap string F) :
  allocation_total (fold_left groupby_step rows m) =
  fold_left nan_add rows.*2 (allocation_total m).
Proof.
  revert m. induction rows as [|[k v] rows IH]; intros m; [done|].
  simpl. rewrite IH. f_equal. apply allocation_total_row.
Qed.

Lemma allocation_total_groupby (rows : list (string * F)) :
  allocation_total (groupby_sum rows.*1 rows.*2) = nansum rows.*2.
Proof.
  unfold groupby_sum, nansum. rewrite zip_fst_snd, groupby_total.
  unfold allocation_total. by rewrite map_fold_empty.
Qed.
End Allocation.

Section IdealAllocation.
Local Open Scope R_scope.

End IdealAllocation.

(** ** The steps of the script on a frame *)

Lemma mapM_get_live_price (gw : gateway) (symbols : list string) :
  ∃ prices, mapM (get_live_price gw) symbols = Ok prices ∧
            Forall2 (λ s p, get_live_price gw s = Ok p) symbols prices.
Proof.
  induction symbols as [|s symbols (prices & Hp & Hall)].
  - exists []. split; [reflexivity|constructor].
  - destruct (get_live_price_total gw s) as [p Hs].
    exists (p :: prices). split; [|by constructor].
    simpl. rewrite Hs. simpl. rewrite Hp. reflexivity.
Qed.

Section Steps.
Variable gw : gateway.

Lemma live_prices_missing (df : frame) :
  df !! "Symbol" = None → live_prices gw df = Raise (KeyError "Symbol").
Proof. intros Hs. unfold live_prices, getitem. rewrite Hs. reflexivity. Qed.

Lemma live_prices_ok (df : frame) (symbols : list string) :
  df !! "Symbol" = Some (StrCol symbols) →
  ∃ prices,
    Forall2 (λ s p, get_live_price gw s = Ok p) symbols prices ∧
    live_prices gw df = Ok (<["LivePrice" := NumCol (map (default F64.nan) prices)]> df).
Proof.
  intros Hs. destruct (mapM_get_live_price gw symbols) as (prices & Hp & Hall).
  exists prices. split; [done|].
  unfold live_prices, getitem. rewrite Hs. simpl. rewrite Hp. reflexivity.
Qed.

Lemma valuation_missing_quantity (df : frame) (lp : list float) :
  df !! "LivePrice" = Some (NumCol lp) → df !! "Quantity" = None →
  valuation df = Raise (KeyError "Quantity").
Proof.
  intros Hlp Hq. unfold valuation, binop, getitem. rewrite Hlp, Hq. reflexivity.
Qed.

Lemma valuation_missing_price (df : frame) (lp q : list float) :
  df !! "LivePrice" = Some (NumCol lp) → df !! "Quantity" = Some (NumCol q) →
  df !! "BuyPrice" = None →
  valuation df = Raise (KeyError "BuyPrice").
Proof.
  intros Hlp Hq Hb. unfold valuation, binop, getitem. simplify_map_eq. reflexivity.
Qed.

Lemma years_held_missing (today : Z) (df : frame) :
  df !! "BuyDate" = None → years_held today df = Raise (KeyError "BuyDate").
Proof. intros Hd. unfold years_held, getitem. rewrite Hd. reflexivity. Qed.
End Steps.


(** ** Rows whose price is missing *)

Lemma mapM_inv {A B} (f : A → result B) (l : list A) (bs : list B) :
  mapM f l = Ok bs → Forall2 (λ a b, f a = Ok b) l bs.
Proof.
  revert bs. induction l as [|a l IH]; intros bs Hm; simpl in Hm.
  - injection Hm as <-. constructor.
  - apply bind_ok_inv in Hm as (b & Hb & Hm).
    apply bind_ok_inv in Hm as (bs' & Hbs & Hm).
    injection Hm as <-. constructor; [done|]. by apply IH.
Qed.

Section SkipRow.
Context {F : Type} `{Arith F}.

Lemma nan_add_nan (acc v : F) : f_isnan v = true → nan_add acc v = acc.
Proof. intros Hv. unfold nan_add. by rewrite Hv. Qed.

Lemma nansum_delete_nan (l : list F) (i : nat) (v : F) :
  l !! i = Some v → f_isnan v = true → nansum (delete i l) = nansum l.
Proof.
  intros Hi Hv. rewrite <- (take_drop_middle l i v Hi) at 2.
  rewrite delete_take_drop. unfold nansum. rewrite !fold_left_app. simpl.
  by rewrite nan_add_nan.
Qed.

Lemma zip_delete {A B} (l : list A) (k : list B) (i : nat) :
  delete i (zip l k) = zip (delete i l) (delete i k).
Proof.
  revert k i. induction l as [|a l IH]; intros k i; [by destruct i, k|].
  destruct k as [|b k].
  - destruct i; simpl; [by destruct l|done].
  - destruct i; simpl; [done|]. f_equal. apply IH.
Qed.

Lemma with_entry_step (k : string) (m m' : gmap string F) (kv : string * F) :
  with_entry k m m' → with_entry k (groupby_step m kv) (groupby_step m' kv).
Proof.
  intros Hm k'. unfold groupby_step.
  destruct (decide (kv.1 = k')) as [<-|Hne].
  - rewrite !lookup_insert_eq, (Hm kv.1). by destruct (decide (kv.1 = k)).
  - rewrite !lookup_insert_ne by done. apply Hm.
Qed.

Lemma with_entry_fold (k : string) (rows : list (string * F)) (m m' : gmap string F) :
  with_entry k m m' →
  with_entry k (fold_left groupby_step rows m) (fold_left groupby_step rows m').
Proof.
  revert m m'. induction rows as [|kv rows IH]; intros m m' Hm; [done|].
  simpl. apply IH. by apply with_entry_step.
Qed.

Lemma with_entry_nan (k : string) (v : F) (m : gmap string F) :
  f_isnan v = true → with_entry k m (groupby_step m (k, v)).
Proof.
  intros Hv k'. unfold groupby_step. simpl. rewrite nan_add_nan by done.
  destruct (decide (k' = k)) as [->|Hne].
  - by rewrite lookup_insert_eq.
  - by rewrite lookup_insert_ne.
Qed.

Lemma filter_other_keys (rows : list (string * F)) (k : string) :
  k ∉ rows.*1 → filter (λ kv, kv.1 = k) rows = [].
Proof.
  induction rows as [|[k0 v] rows IH]; intros Hk; [done|].
  apply not_elem_of_cons in Hk as [Hne Hk].
  rewrite filter_cons_False by (intros Heq; apply Hne; by rewrite <- Heq). by apply IH.
Qed.

(** The entry of a sector is the sum, in row order, of the values of
    the rows of that sector, at every arithmetic: no row is lost and
    none is counted twice. *)
Lemma groupby_fold_lookup (rows : list (string * F)) (m : gmap string F) (k : string) :
  fold_left groupby_step rows m !! k =
    if decide (k ∈ rows.*1)
    then Some (fold_left nan_add (filter (λ kv, kv.1 = k) rows).*2
                 (default (f_of_Z 0) (m !! k)))
    else m !! k.
Proof.
  revert m. induction rows as [|[k0 v] rows IH]; intros m; [done|].
  cbn [fold_left]. rewrite IH.
  assert (Hstep : groupby_step m (k0, v) !! k =
                  if decide (k0 = k)
                  then Some (nan_add (default (f_of_Z 0) (m !! k)) v) else m !! k).
  { unfold groupby_step. cbn [fst snd]. destruct (decide (k0 = k)) as [->|Hne].
    - apply lookup_insert_eq.
    - by apply lookup_insert_ne. }
  rewrite Hstep. change (((k0, v) :: rows).*1) with (k0 :: rows.*1).
  destruct (decide (k0 = k)) as [->|Hne].
  - rewrite filter_cons_True by done.
    rewrite (decide_True (P := k ∈ k :: rows.*1)) by apply list_elem_of_here.
    destruct (decide (k ∈ rows.*1)) as [|Hnot]; [done|].
    by rewrite filter_other_keys.
  - rewrite filter_cons_False by done.
    destruct (decide (k ∈ rows.*1)) as [Hin|Hnot].
    + by rewrite decide_True by by apply list_elem_of_further.
    + rewrite decide_False; [done|].
      intros [?|?]%elem_of_cons; congruence.
Qed.

Lemma groupby_sum_lookup (keys : list string) (values : list F) (k : string) :
  length keys = length values →
  groupby_sum keys values !! k =
    if decide (k ∈ keys)
    then Some (nansum (filter (λ kv, kv.1 = k) (zip keys values)).*2)
    else None.
Proof.
  intros Hlen. unfold groupby_sum. rewrite groupby_fold_lookup.
  rewrite fst_zip by lia. by rewrite lookup_empty.
Qed.

(** A row whose value is NaN adds nothing to any group; it only
    makes sure its own group has an entry. *)
Lemma groupby_delete_nan (keys : list string) (values : list F) (i : nat) (k : string) (v : F) :
  keys !! i = Some k → values !! i = Some v → f_isnan v = true →
  with_entry k (groupby_sum (delete i keys) (delete i values)) (groupby_sum keys values).
Proof.
  intros Hk Hv Hnan. unfold groupby_sum.
  rewrite <- zip_delete.
  assert (Hi : zip keys values !! i = Some (k, v)).
  { apply lookup_zip_with_Some. eauto. }
  rewrite <- (take_drop_middle _ i _ Hi) at 2. rewrite delete_take_drop.
  rewrite !fold_left_app. simpl. apply with_entry_fold. by apply with_entry_nan.
Qed.
End SkipRow.

Section Enriched.
Local Open Scope float_scope.
Variable pow_rest : float → float → result float.
Variable gw : gateway.
Variable today : Z.

(** What lines 50-65 leave in the frame. *)
Lemma enrich_inv (df df' : frame) :
  enrich pow_rest gw today df = Ok df' →
  ∃ symbols prices q bp days cs,
    df !! "Symbol" = Some (StrCol symbols) ∧
    df !! "Quantity" = Some (NumCol q) ∧
    df !! "BuyPrice" = Some (NumCol bp) ∧
    df !! "BuyDate" = Some (DayCol days) ∧
    Forall2 (λ s p, get_live_price gw s = Ok p) symbols prices ∧
    let lp := map (default F64.nan) prices in
    let cv := zip_with PrimFloat.mul lp q in
    let iv := zip_with PrimFloat.mul bp q in
    let pl := zip_with PrimFloat.sub cv iv in
    let r := map (λ x, x * 100) (zip_with PrimFloat.div pl iv) in
    let ys := map (λ d, F64.of_Z (today - d) / 365) days in
    Forall2 (λ x c, calculate_cagr pow_rest x.1.1 x.1.2 x.2 = Ok c) (zip (zip bp lp) ys) cs ∧
    df' = <["Sector" := StrCol (map (get_sector gw) symbols)]>
            (<["CAGR" := NumCol cs]> (<["Years" := NumCol ys]>
              (<["Returns %" := NumCol r]> (<["P/L" := NumCol pl]>
                (<["InvestedValue" := NumCol iv]> (<["CurrentValue" := NumCol cv]>
                  (<["LivePrice" := NumCol lp]> df))))))).
Proof.
  unfold enrich. intros H.
  apply bind_ok_inv in H as (df1 & H1 & H).
  apply bind_ok_inv in H as (df2 & H2 & H).
  apply bind_ok_inv in H as (df3 & H3 & H).
  apply bind_ok_inv in H as (df4 & H4 & H).
  (* line 50 *)
  unfold live_prices in H1.
  apply bind_ok_inv in H1 as (col & Hcol & H1). apply getitem_inv in Hcol.
  apply bind_ok_inv in H1 as (symbols & Hsym & H1). apply as_str_inv in Hsym as ->.
  apply bind_ok_inv in H1 as (prices & Hprices & H1). apply mapM_inv in Hprices.
  apply Ok_inj in H1 as <-.
  (* lines 53-56 *)
  apply valuation_inv in H2 as (lp & q & bp & Hlp & Hq & Hbp & ->). cbv zeta in *.
  rewrite lookup_insert_eq in Hlp. injection Hlp as <-.
  rewrite lookup_insert_ne in Hq, Hbp by done.
  (* line 61 *)
  unfold years_held in H3.
  apply bind_ok_inv in H3 as (col & Hd & H3). apply getitem_inv in Hd.
  apply bind_ok_inv in H3 as (days & Hdays & H3). apply as_day_inv in Hdays as ->.
  apply Ok_inj in H3 as <-.
  rewrite !lookup_insert_ne in Hd by done.
  (* line 62 *)
  unfold cagr_column in H4.
  apply bind_ok_inv in H4 as (b & Hb & H4). apply getitem_inv in Hb.
  apply bind_ok_inv in H4 as (l & Hl & H4). apply getitem_inv in Hl.
  apply bind_ok_inv in H4 as (y & Hy & H4). apply getitem_inv in Hy.
  apply bind_ok_inv in H4 as (bs & Hbs & H4). apply as_num_inv in Hbs as ->.
  apply bind_ok_inv in H4 as (ls & Hls & H4). apply as_num_inv in Hls as ->.
  apply bind_ok_inv in H4 as (ys & Hys & H4). apply as_num_inv in Hys as ->.
  apply bind_ok_inv in H4 as (cs & Hcs & H4). apply mapM_inv in Hcs.
  apply Ok_inj in H4 as <-.
  simplify_map_eq.
  (* line 65 *)
  unfold sector_column, getitem in H. simplify_map_eq.
  by exists symbols, prices, q, bp, days, cs.
Qed.

End Enriched.

Lemma rectangular_portfolio : rectangular Sample.portfolio 2.
Proof.
  intros c col Hc. unfold Sample.portfolio, Sample.table in Hc.
  repeat (apply lookup_insert_Some in Hc as [[_ <-]|[_ Hc]]; [reflexivity|]).
  by rewrite lookup_empty in Hc.
Qed.



(** ** The page *)

Lemma ui_bind_raise {A B} (w : list widget) (e : exn) (k : A → ui B) :
  ((w, Raise e) : ui A) ≫= k = (w, Raise e).
Proof. reflexivity. Qed.

Lemma ui_bind_lift_raise {A B} (e : exn) (k : A → ui B) :
  lift (Raise e) ≫= k = ([], Raise e).
Proof. reflexivity. Qed.

Lemma ui_bind_lift_ok {A B} (a : A) (k : A → ui B) :
  lift (Ok a) ≫= k = k a.
Proof. unfold lift, mbind, ui_bind. simpl. by destruct (k a). Qed.

Lemma ui_bind_st {B} (w : widget) (k : unit → ui B) :
  st w ≫= k = (w :: (k tt).1, (k tt).2).
Proof. reflexivity. Qed.

Lemma ui_bind_never_l {A B} (m : ui A) (k : A → ui B) :
  (∃ e, m.2 = Raise e) → ∃ e, (m ≫= k).2 = Raise e.
Proof. intros [e He]. unfold mbind, ui_bind. rewrite He. eauto. Qed.

Section Abort.
Variable pow_rest : float → float → result float.
Variable gw : gateway.
Variable today : Z.

Lemma run_some (f : upload) :
  run pow_rest gw today (Some f) =
    (Title "Portfolio Analyzer (Live Stock Analysis)" ::
       (analysis pow_rest gw today f ≫=
          λ _, st (Notice "Upload your CSV to begin portfolio analysis.")).1,
     (analysis pow_rest gw today f ≫=
          λ _, st (Notice "Upload your CSV to begin portfolio analysis.")).2).
Proof. reflexivity. Qed.


Lemma ui_bind_never {A B} (m : ui A) (k : A → ui B) :
  (∀ a, ∃ e, (k a).2 = Raise e) → ∃ e, (m ≫= k).2 = Raise e.
Proof.
  intros Hk. unfold mbind, ui_bind. destruct m as [w [a|e]]; simpl; [apply Hk|eauto].
Qed.

Lemma nifty_return_empty :
  history gw "^NSEI" "1y" = [] → nifty_return gw = Raise IndexError.
Proof. intros Hn. unfold nifty_return. rewrite Hn. reflexivity. Qed.

(** Whatever is uploaded, a run with an empty benchmark history ends
    in an exception. *)
Lemma empty_benchmark_never_completes (uploaded_file : upload) :
  history gw "^NSEI" "1y" = [] →
  ∃ log e, run pow_rest gw today (Some uploaded_file) = (log, Raise e).
Proof.
  intros Hn.
  assert (He : ∃ e, (run pow_rest gw today (Some uploaded_file)).2 = Raise e).
  { unfold run. apply ui_bind_never. intros _. apply ui_bind_never_l.
    unfold analysis. rewrite (nifty_return_empty Hn).
    repeat first [ apply ui_bind_never_l; eexists; reflexivity
                 | apply ui_bind_never; intros ? ]. }
  destruct He as [e He]. destruct (run _ _ _ _) as [log r]. simpl in He. subst. eauto.
Qed.
End Abort.

(** C5 at work.  With an empty history for [^NSEI] the holdings table,
    the three summary metrics, the sector chart and the risk table are
    rendered; then [nifty.iloc[-1]] raises [IndexError], which nothing
    catches: the comparison metrics and the closing notice of the
    script are never reached. *)
Theorem empty_benchmark_raises :
  ∃ df sectors risk,
    run Sample.pow_half (Sample.market false) 730 (Some (Sample.csv_file Sample.holding)) =
      ([Title "Portfolio Analyzer (Live Stock Analysis)";
        Success "File uploaded successfully!";
        Subheader "Fetching Live Prices...";
        Subheader "CAGR & Portfolio Returns";
        Dataframe df;
        Header "Portfolio Summary";
        Metric "Total Invested" 1000;
        Metric "Current Value" 1500;
        Metric "Total P/L" 500;
        Subheader "Sector Allocation";
        PieChart sectors;
        Subheader "Volatility & Risk Analysis";
        RiskTable risk;
        ScatterChart risk;
        Subheader "Portfolio vs NIFTY 50 Comparison"],
       Raise IndexError).
Proof. eexists _, _, _. reflexivity. Qed.


Lemma well_typed_without_dates : well_typed (delete "BuyDate" Sample.holding).
Proof.
  repeat split; intros col Hcol; vm_compute in Hcol;
    first [discriminate | injection Hcol as <-; by eexists].
Qed.


(** * Further properties of the script *)

(** ** Live prices *)

Lemma get_live_price_last (gw : gateway) (symbol : string) :
  get_live_price gw symbol = Ok (last (history gw symbol "1d")).
Proof.
  unfold get_live_price, iloc_last.
  destruct (history gw symbol "1d") as [|x s]; [done|].
  cbn [empty negb]. destruct (last (x :: s)) as [y|] eqn:Hl; [done|].
  apply last_None in Hl. discriminate.
Qed.



(** ** The enriched table *)

Section EnrichedFrame.
Variable pow_rest : float → float → result float.
Variable gw : gateway.
Variable today : Z.

(** X2.  Lines 50-65 keep the table rectangular: when every column of
    the upload has [n] rows, so has every column of the enriched
    table, the eight added ones included. *)
Theorem enrich_rectangular (df df' : frame) (n : nat) :
  rectangular df n →
  enrich pow_rest gw today df = Ok df' →
  rectangular df' n.
Proof.
  intros Hrect Henrich.
  apply enrich_inv in Henrich
    as (symbols & prices & q & bp & days & cs & Hsym & Hq & Hbp & Hd & Hprices & Hcs & ->).
  cbv zeta in *.
  pose proof (Hrect _ _ Hsym) as Hn. pose proof (Hrect _ _ Hq) as Hnq.
  pose proof (Hrect _ _ Hbp) as Hnb. pose proof (Hrect _ _ Hd) as Hnd. simpl in *.
  apply Forall2_length in Hprices, Hcs.
  rewrite !length_zip_with, !length_map in Hcs.
  intros c col Hc.
  repeat (apply lookup_insert_Some in Hc as [[_ <-]|[_ Hc]];
          [simpl; rewrite ?length_map, ?length_zip_with, ?length_map; lia|]).
  by apply (Hrect c).
Qed.

(** X3.  Lines 50-65 write the eight columns of [derived_columns]
    and nothing else: every other column of the upload, the four
    required ones among them, is in the enriched table as it was, and
    each of the eight is present, also when the upload already had a
    column of that name. *)
Theorem enrich_columns (df df' : frame) :
  enrich pow_rest gw today df = Ok df' →
  (∀ c, c ∉ derived_columns → df' !! c = df !! c) ∧
  (∀ c, c ∈ derived_columns → is_Some (df' !! c)).
Proof.
  intros Henrich.
  apply enrich_inv in Henrich
    as (symbols & prices & q & bp & days & cs & Hsym & Hq & Hbp & Hd & Hprices & Hcs & ->).
  cbv zeta. split; intros c Hc; unfold derived_columns in Hc.
  - repeat (apply not_elem_of_cons in Hc as [? Hc]).
    by rewrite !lookup_insert_ne by done.
  - repeat (apply elem_of_cons in Hc as [->|Hc]; [by simplify_map_eq|]).
    by apply elem_of_nil in Hc.
Qed.

End EnrichedFrame.

Lemma enrich_rectangular_witness :
  ∃ df' : frame,
    enrich Sample.pow_half (Sample.market true) 730 Sample.portfolio = Ok df' ∧
    rectangular df' 2.
Proof.
  eexists. split; [reflexivity|].
  apply (enrich_rectangular Sample.pow_half (Sample.market true) 730 Sample.portfolio _ 2);
    [apply rectangular_portfolio|reflexivity].
Defined.

Lemma enrich_columns_witness :
  ∃ df' : frame,
    enrich Sample.pow_half (Sample.market true) 730 Sample.portfolio = Ok df' ∧
    (∀ c, c ∉ derived_columns → df' !! c = Sample.portfolio !! c) ∧
    (∀ c, c ∈ derived_columns → is_Some (df' !! c)).
Proof.
  eexists. split; [reflexivity|].
  apply (enrich_columns Sample.pow_half (Sample.market true) 730 Sample.portfolio).
  reflexivity.
Defined.


(** ** The risk table and the benchmark comparison *)

(** X5.  The symbols of the risk table (lines 93-100) are the symbols
    of the table whose one-year history is not empty, in the order of
    the table and as often as they occur there. *)
Theorem risk_table_symbols (gw : gateway) (symbols : list string) :
  (returns_data gw symbols).*1.*1 =
    filter (λ s, empty (history gw s "1y") = false) symbols.
Proof.
  unfold returns_data. induction symbols as [|s symbols IH]; [done|].
  change (omap (risk_row gw) (s :: symbols))
    with (match risk_row gw s with
          | Some y => y :: omap (risk_row gw) symbols
          | None => omap (risk_row gw) symbols
          end).
  unfold risk_row at 1.
  destruct (history gw s "1y") as [|c hist] eqn:Hh.
  - cbn [empty negb]. rewrite filter_cons_False; [done|]. by rewrite Hh.
  - cbn [empty negb]. destruct (risk_record (c :: hist)) as [vol avg].
    rewrite filter_cons_True by (by rewrite Hh).
    rewrite !fmap_cons. cbn [fst]. by rewrite IH.
Qed.

Section ShortHistory.
Local Open Scope float_scope.

(** X6.  A history of at most two closes has at most one daily return,
    and the sample standard deviation of fewer than two values is NaN:
    the volatility of lines 97-98 is NaN, whatever the closes. *)
Theorem short_history_volatility (closes : list float) :
  (length closes ≤ 2)%nat → (risk_record closes).1 = F64.nan.
Proof.
  intros Hlen. destruct closes as [|a [|b [|c closes]]]; simpl in Hlen; try lia.
  - reflexivity.
  - by rewrite risk_record_single.
  - unfold risk_record. cbn [fst]. rewrite pct_change_cons.
    change (f_sub (f_div a f_nan) (f_of_Z 1)) with (a / F64.nan - 1).
    rewrite F64Facts.div_nan_r, F64Facts.sub_nan_l.
    unfold nanstd, nanvar. rewrite count_cons_nan by reflexivity.
    cbn [zip_with]. unfold count.
    destruct (decide (f_isnan (f_sub (f_div b a) (f_of_Z 1)) = false)) as [Hr|Hr].
    + rewrite filter_cons_True by done. reflexivity.
    + rewrite filter_cons_False by done. reflexivity.
Qed.

End ShortHistory.

Lemma short_history_volatility_witness :
  (risk_record [100; 102]%float).1 = F64.nan.
Proof. apply (short_history_volatility [100; 102]%float). simpl. lia. Defined.


(** ** The run of the page *)

Lemma mapM_raises {A B} (f : A → result B) (l : list A) (i : nat) (a : A) (e : exn) :
  l !! i = Some a → f a = Raise e → ∃ e', mapM f l = Raise e'.
Proof.
  revert i. induction l as [|x l IH]; intros i Hi Hf; [done|].
  simpl. destruct (f x) as [b|e0] eqn:Hx; [|by eexists].
  destruct i as [|i]; [simpl in Hi; congruence|].
  destruct (IH i Hi Hf) as [e' ->]. by eexists.
Qed.

Lemma ui_bind_emit {B} (w : widget) (k : unit → ui B) : st w ≫= k = emit w (k tt).
Proof. reflexivity. Qed.

Lemma ui_bind_mret {A B} (a : A) (k : A → ui B) : mret a ≫= k = k a.
Proof. apply (ui_bind_lift_ok a k). Qed.

Lemma ui_bind_assoc_emit {A B} (w : widget) (m : ui A) (k : A → ui B) :
  emit w m ≫= k = emit w (m ≫= k).
Proof. unfold emit, mbind, ui_bind. simpl. by destruct (m.2). Qed.

Lemma emit_pair {A} (w : widget) (log : list widget) (r : result A) :
  emit w (log, r) = (w :: log, r).
Proof. reflexivity. Qed.

Lemma ui_bind_ok {A B} (a : A) (k : A → ui B) : (([], Ok a) : ui A) ≫= k = k a.
Proof. apply (ui_bind_lift_ok a k). Qed.

Lemma ui_bind_log {A B} (P : widget → Prop) (m : ui A) (k : A → ui B) :
  Forall P m.1 → (∀ a, Forall P (k a).1) → Forall P (m ≫= k).1.
Proof.
  intros Hm Hk. unfold mbind, ui_bind. destruct m as [w [a|e]]; simpl in *; [|done].
  apply Forall_app. split; [done|apply Hk].
Qed.

(** One step of the page: a widget is emitted, or a computation
    returns or raises. *)
Ltac ui_step :=
  first [ rewrite ui_bind_lift_ok | rewrite ui_bind_emit | rewrite ui_bind_mret
        | rewrite ui_bind_assoc_emit | rewrite ui_bind_lift_raise
        | rewrite ui_bind_raise | rewrite ui_bind_ok ];
  cbv beta.

Section Outcome.
Variable pow_rest : float → float → result float.
Variable gw : gateway.
Variable today : Z.


Lemma cagr_column_raises (df : frame) (bs ls ys : list float) (i : nat) (b l y : float) :
  df !! "BuyPrice" = Some (NumCol bs) →
  df !! "LivePrice" = Some (NumCol ls) →
  df !! "Years" = Some (NumCol ys) →
  bs !! i = Some b → ls !! i = Some l → ys !! i = Some y →
  F64.positive b = true → F64.is_zero y = true →
  ∃ e, cagr_column pow_rest df = Raise e.
Proof.
  intros Hb Hl Hy Hbi Hli Hyi Hpos Hzero. unfold cagr_column, getitem.
  rewrite Hb, Hl, Hy. simpl.
  destruct (mapM_raises (λ x, calculate_cagr pow_rest x.1.1 x.1.2 x.2)
              (zip (zip bs ls) ys) i (b, l, y) ZeroDivisionError) as [e ->].
  - apply lookup_zip_with_Some. exists (b, l), y. split; [done|]. split; [|done].
    apply lookup_zip_with_Some. eauto.
  - by apply calculate_cagr_years_zero.
  - by eexists.
Qed.


Lemma analysis_no_notice (f : upload) : Forall not_notice (analysis pow_rest gw today f).1.
Proof.
  unfold analysis.
  repeat first
    [ apply ui_bind_log; [|intros ?]
    | apply Forall_nil_2
    | by (apply Forall_singleton; intros text)
    | match goal with |- context [if ?b then _ else _] => destruct b end ].
Qed.

(** X10.  The notice of line 130 is on the page exactly when the run
    ends normally, with or without an upload: it is the last statement
    of the script, no other statement emits it, and a run that raises
    never reaches it. *)
Theorem closing_notice (uploaded_file : option upload) :
  Notice "Upload your CSV to begin portfolio analysis."
    ∈ (run pow_rest gw today uploaded_file).1
  ↔ (run pow_rest gw today uploaded_file).2 = Ok tt.
Proof.
  unfold run. rewrite ui_bind_emit.
  set (m := match uploaded_file with Some f => analysis pow_rest gw today f | None => mret tt end).
  assert (Hm : Forall not_notice m.1).
  { subst m. destruct uploaded_file; [apply analysis_no_notice|apply Forall_nil_2]. }
  destruct m as [log [[]|e]]; unfold emit, mbind, ui_bind; simpl in *.
  - split; [done|]. intros _. apply list_elem_of_further, elem_of_app. right.
    apply list_elem_of_here.
  - split; [|done]. intros [Heq|Hin]%elem_of_cons; [done|].
    rewrite Forall_forall in Hm.
    by destruct (Hm _ Hin "Upload your CSV to begin portfolio analysis.").
Qed.
End Outcome.


Lemma rectangular_holding : rectangular Sample.holding 1.
Proof.
  intros c col Hc. unfold Sample.holding, Sample.table in Hc.
  repeat (apply lookup_insert_Some in Hc as [[_ <-]|[_ Hc]]; [reflexivity|]).
  by rewrite lookup_empty in Hc.
Qed.


(** ** The format of the upload *)

Lemma substring_whole (s : string) : substring 0 (String.length s) s = s.
Proof. induction s as [|c s IH]; simpl; [done|]. by rewrite IH. Qed.

Lemma substring_after (p s : string) (k : nat) :
  substring (String.length p) k (p ++ s) = substring 0 k s.
Proof. induction p as [|c p IH]; simpl; [done|]. apply IH. Qed.

Lemma length_append (p s : string) :
  String.length (p ++ s) = (String.length p + String.length s)%nat.
Proof. induction p as [|c p IH]; simpl; [done|]. by rewrite IH. Qed.

Lemma substring_split (s : string) (m : nat) :
  (m ≤ String.length s)%nat →
  s = substring 0 m s ++ substring m (String.length s - m) s.
Proof.
  revert m. induction s as [|c s IH]; intros m Hm.
  - destruct m; [done|simpl in Hm; lia].
  - destruct m as [|m].
    + simpl. by rewrite substring_whole.
    + simpl in *. change (String c (substring 0 m s) ++ ?t)
        with (String c (substring 0 m s ++ t)).
      f_equal. apply IH. lia.
Qed.

Lemma endswith_spec (s suffix : string) :
  endswith s suffix = true ↔ ∃ stem, s = stem ++ suffix.
Proof.
  unfold endswith. rewrite andb_true_iff, Nat.leb_le, String.eqb_eq. split.
  - intros [Hle Hsub]. exists (substring 0 (String.length s - String.length suffix) s).
    pose proof (substring_split s (String.length s - String.length suffix)) as Hs.
    replace (String.length s - (String.length s - String.length suffix))%nat
      with (String.length suffix) in Hs by lia.
    rewrite Hsub in Hs. apply Hs. lia.
  - intros [stem ->]. rewrite length_append. split; [lia|].
    replace (String.length stem + String.length suffix - String.length suffix)%nat
      with (String.length stem) by lia.
    by rewrite substring_after, substring_whole.
Qed.

(** X11.  Line 44 chooses the reader by the last three characters of
    the file name, compared as they are: a name that is some text
    followed by [csv], with or without a dot before it, is read as
    CSV; every other name, [.CSV] in capitals included, is read as an
    Excel workbook. *)
Theorem decoded_by_suffix (f : upload) :
  ((∃ stem, name f = stem ++ "csv") → decoded f = read_csv f) ∧
  ((∀ stem, name f ≠ stem ++ "csv") → decoded f = read_excel f).
Proof.
  unfold decoded. destruct (endswith (name f) "csv") eqn:He.
  - split; [done|]. intros Hno. apply endswith_spec in He as [stem Hs]. by destruct (Hno stem).
  - split; [|done]. intros Hs. apply endswith_spec in Hs. congruence.
Qed.

(** ** Maximum drawdown *)

Section IdealDrawdown.
Local Open Scope R_scope.

Lemma cummax_from_peaks (mval : option (option R)) (series : list (option R)) :
  Forall positive_price series →
  (mval = None ∨ ∃ m, mval = Some (Some m) ∧ 0 < m) →
  Forall2 below_peak series (cummax_from mval series).
Proof.
  intros Hs. revert mval. induction Hs as [|v series (a & -> & Ha) _ IH]; intros mval Hm.
  { constructor. }
  cbn [cummax_from f_isnan ideal Ideal.isnan].
  destruct Hm as [->|(m & -> & Hm)].
  - constructor; [exists a, a; repeat split; (done || lra)|].
    apply IH. right. by exists a.
  - cbn [f_ltb ideal_order ideal_ltb]. destruct (Rlt_dec m a) as [Hlt|Hge].
    + constructor; [exists a, a; repeat split; (done || lra)|].
      apply IH. right. by exists a.
    + constructor; [exists a, m; repeat split; (done || lra)|].
      apply IH. right. by exists m.
Qed.

Lemma drawdown_cells (series peaks : list (option R)) :
  Forall2 below_peak series peaks →
  Forall loss (zip_with f_div (zip_with f_sub series peaks) peaks).
Proof.
  induction 1 as [|s c series peaks (a & b & -> & -> & Ha & Hab) _ IH]; [constructor|].
  cbn [zip_with]. constructor; [|done].
  exists ((a - b) / b). split.
  - simpl. unfold Ideal.div. destruct (Req_EM_T b 0) as [Hz|_]; [lra|done].
  - assert (Hb : 0 < b) by lra.
    assert (Hq : (a - b) / b = a / b - 1) by (field; lra).
    assert (Hr : 0 < a / b) by (apply Rdiv_lt_0_compat; lra).
    assert (Hle : a / b <= 1).
    { apply Rmult_le_reg_r with b; [done|]. unfold Rdiv.
      rewrite Rmult_assoc, Rinv_l by lra. lra. }
    lra.
Qed.

Lemma fold_min_loss (l : list (option R)) (v : option R) :
  loss v → Forall loss l →
  loss (fold_left (λ m x, if f_ltb x m then x else m) l v).
Proof.
  intros Hv Hl. revert v Hv. induction Hl as [|x l Hx _ IH]; intros v Hv; [done|].
  simpl. apply IH. by destruct (ideal_ltb x v).
Qed.

Lemma loss_present (l : list (option R)) :
  Forall loss l → filter (λ v, f_isnan v = false) l = l.
Proof.
  induction 1 as [|x l (d & -> & _) _ IH]; [done|].
  rewrite filter_cons_True by done. by rewrite IH.
Qed.

End IdealDrawdown.


(** X13.  On a series without a number, the empty series included,
    [calculate_drawdown] returns NaN and does not raise: a NaN cell
    stays NaN in the running maximum and in the quotient, and the
    minimum of no number is NaN. *)
Theorem drawdown_no_numbers (series : list float) :
  Forall (λ v, is_nan v = true) series → calculate_drawdown series = F64.nan.
Proof.
  intros Hs. unfold calculate_drawdown, nanmin. cbv zeta.
  assert (Hc : cummax_from None series = series).
  { generalize (@None float). induction Hs as [|v series Hv _ IH]; intros mval; [done|].
    cbn [cummax_from f_isnan binary64]. by rewrite Hv, IH. }
  rewrite Hc. clear Hc.
  assert (Hf : filter (λ v, f_isnan v = false)
                 (zip_with f_div (zip_with f_sub series series) series) = []).
  { induction Hs as [|v series Hv _ IH]; [done|].
    cbn [zip_with]. rewrite filter_cons_False; [exact IH|].
    apply F64Facts.is_nan_eq in Hv as ->. cbn [f_sub f_div f_isnan binary64].
    by rewrite F64Facts.sub_nan_l, F64Facts.div_nan_l. }
  by rewrite Hf.
Qed.

Lemma drawdown_no_numbers_witness :
  calculate_drawdown [F64.nan; F64.nan] = F64.nan.
Proof. apply (drawdown_no_numbers [F64.nan; F64.nan]). by repeat constructor. Defined.

(** The four closes 100, 120, 90, 110 in binary64: the peak is 120 and
    the deepest fall is from 120 to 90, a quarter. *)
Example drawdown_after_peak :
  calculate_drawdown [100; 120; 90; 110]%float = (-0.25)%float.
Proof. reflexivity. Qed.
